(** * PsychoPy native extension shims: Bits++ control, Windows priority,
      POSIX real-time scheduling

    A shallow embedding of the C functions of [psychopy/ext]:
    - [_bits.c]              ([bits_init], [bits_setVideoMode]),
    - [_win32.c], [posix.c]  ([win32_setProcessPriority],
                              [win32_setThreadPriority], [win32_getRefresh]),
    - [posix_maxpriority.c]  ([set_self_policy_priority],
                              [stop_memory_paging]),
    together with the method tables and the module initialisers of the
    first three files and the constants of [bits.h] they rely on.

    Every function is a few lines that forward to a vendor or operating
    system entry point.  Such an entry point is not code of the shim, so it
    is an _external call_: a shim is a finite tree of external calls, and it
    is run against a handler that stands for the vendor library and the
    operating system and may answer anything.  Running a shim yields its
    return value, the list of external calls it made with their answers,
    and the state in which it leaves the outside world. *)

From Stdlib Require Import ZArith List String Bool Lia.
From ExtLib Require Import Structures.Monad.
Import ListNotations.
Import MonadNotation.
Local Open Scope Z_scope.
Local Open Scope monad_scope.

(* ===================================================================== *)
(** ** C integers *)
(* ===================================================================== *)

(** A C integer is its mathematical value in [Z]; a conversion to a
    narrower or unsigned type is written out as the wrap-around it is. *)
Module C.

Definition INT_MIN : Z := -2147483648.
Definition INT_MAX : Z := 2147483647.

(** [(unsigned short) x] *)
Definition to_ushort (x : Z) : Z := x mod 2 ^ 16.

(** Conversion to [DWORD], [typedef unsigned long DWORD] of [bits.h],
    32 bits wide on the platform the vendor library exists for. *)
Definition to_DWORD (x : Z) : Z := x mod 2 ^ 32.

(** A C condition: any value but zero is true. *)
Definition truthy (x : Z) : bool := negb (x =? 0).

End C.

(* ===================================================================== *)
(** ** Values exchanged with the host interpreter and the system *)
(* ===================================================================== *)

(** The Python objects the shims receive or build.  A float carries the
    64 bits of its IEEE-754 double. *)
Inductive PyObject : Type :=
| PyInt (value : Z)
| PyFloat (bits : Z)
| PyString (s : string)
| PyNone.

(** What a [PyObject *]-returning C function hands back: [None] is the
    [NULL] pointer, by which an extension function signals an error to the
    interpreter; [Some o] is a new reference to [o]. *)
Definition PyResult : Type := option PyObject.

(** [Py_BuildValue("i", x)]: a Python integer of the C [int] [x]. *)
Definition Py_BuildValue_i (x : Z) : PyResult := Some (PyInt x).

Definition HANDLE : Type := Z.

(** The fields of [DEVMODE] the shim touches. *)
Record DEVMODE : Type := mkDEVMODE {
  dmDriverExtra : Z;
  dmDisplayFrequency : Z
}.

(** The symbolic mode number given to [EnumDisplaySettings]. *)
Inductive mode_num : Type :=
| ENUM_CURRENT_SETTINGS
| ENUM_REGISTRY_SETTINGS
| mode_index (n : Z).

(** [struct sched_param] of [<sched.h>]. *)
Record sched_param : Type := mk_sched_param {
  sched_priority : Z
}.

(** Constants of [bits.h]. *)
Module Bits.
Definition E_DISPLAYNOTOPEN : Z := -8.
Definition E_INTERNALERROR : Z := -9.
Definition E_ALREADYOPEN : Z := -10.
Definition E_DISPLAYERROR : Z := -11.
Definition E_OUTOFRESOURCES : Z := -12.

Definition bits8BITPALETTEMODE : Z := 0x00000001.
Definition bitsNOGAMMACORRECT : Z := 0x00004000.
Definition bitsGAMMACORRECT : Z := 0x00008000.
Definition bitsVIDEOENCODEDCOMMS : Z := 0x00080000.
End Bits.

(* ===================================================================== *)
(** ** External calls and programs over them *)
(* ===================================================================== *)

(** The vendor and operating system entry points the shims call, each
    indexed by the type of what it gives back.  [EnumDisplaySettings]
    receives the device name ([None] for [NULL]), the mode number and the
    one field the caller has set in the buffer, and gives back its [BOOL]
    together with the buffer it filled. *)
Inductive call : Type -> Type :=
| bitsInit (Filename : string) : call Z
| bitsSetVideoMode (ModeFlags : Z) : call Z
| GetCurrentProcess : call HANDLE
| GetCurrentThread : call HANDLE
| SetPriorityClass (hProcess : HANDLE) (dwPriorityClass : Z) : call Z
| SetThreadPriority (hThread : HANDLE) (nPriority : Z) : call Z
| EnumDisplaySettings (lpszDeviceName : option string) (iModeNum : mode_num)
                      (dmDriverExtra_in : Z) : call (Z * DEVMODE)
| sched_setscheduler (pid policy : Z) (param : sched_param) : call Z
| mlockall (flags : Z) : call Z.

(** A program: it returns, or makes an external call and goes on with the
    answer. *)
Inductive prog (R : Type) : Type :=
| Ret (r : R)
| Call {X : Type} (c : call X) (k : X -> prog R).

Arguments Ret {R} r.
Arguments Call {R X} c k.

Fixpoint prog_bind {A B : Type} (p : prog A) (f : A -> prog B) : prog B :=
  match p with
  | Ret a => f a
  | Call c k => Call c (fun x => prog_bind (k x) f)
  end.

#[export] Instance Monad_prog : Monad prog :=
  {| ret := @Ret; bind := @prog_bind |}.

(** Make one external call and return its answer. *)
Definition ext {X : Type} (c : call X) : prog X := Call c Ret.

(** One entry of the record of what happened: a call and its answer. *)
Inductive event : Type :=
| Ev {X : Type} (c : call X) (answer : X).

(** The outside world: a state [W] and, for each call, the answer and the
    next state. *)
Definition handler (W : Type) : Type := forall X : Type, call X -> W -> X * W.

Record outcome (W R : Type) : Type := mkOutcome {
  result : R;
  trace : list event;
  world : W
}.

Arguments mkOutcome {W R} result trace world.
Arguments result {W R} o.
Arguments trace {W R} o.
Arguments world {W R} o.

Fixpoint run {W R : Type} (h : handler W) (p : prog R) (w : W) : outcome W R :=
  match p with
  | Ret r => mkOutcome r [] w
  | Call c k =>
      let (x, w1) := h _ c w in
      let o := run h (k x) w1 in
      mkOutcome (result o) (Ev c x :: trace o) (world o)
  end.

(* ===================================================================== *)
(** ** [_bits.c] *)
(* ===================================================================== *)

Section BitsShim.

(** [PyArg_ParseTuple(args, "i", &v)] belongs to the interpreter, not to
    the shim: [None] when it returns 0 (an exception is set), [Some v]
    when it returns nonzero and has stored the C [int] [v]. *)
Variable PyArg_ParseTuple_i : list PyObject -> option Z.

(** <<
    if (bitsInit(EMPTY)<0) return NULL;
    else return Py_BuildValue("i",1);
    >>
    where [EMPTY] stands for the empty string literal of the source.
    The argument tuple is not looked at. *)
Definition bits_init (args : list PyObject) : prog PyResult :=
  status <- ext (bitsInit EmptyString) ;;
  if status <? 0 then ret None
  else ret (Py_BuildValue_i 1).

(** <<
    PyObject *videoMode;
    if (!PyArg_ParseTuple(args, "i", &videoMode)) return NULL;
    if (bitsSetVideoMode(videoMode)) return NULL;
    else return Py_BuildValue("i",1);
    >>
    The local is declared as a pointer but only ever holds the [int] the
    converter stores in it; [bits.h] declares the parameter of
    [bitsSetVideoMode] as a [DWORD], so the value is converted on the
    way in. *)
Definition bits_setVideoMode (args : list PyObject) : prog PyResult :=
  match PyArg_ParseTuple_i args with
  | None => ret None
  | Some videoMode =>
      status <- ext (bitsSetVideoMode (C.to_DWORD videoMode)) ;;
      if C.truthy status then ret None
      else ret (Py_BuildValue_i 1)
  end.

End BitsShim.

(* ===================================================================== *)
(** ** [_win32.c] and [posix.c] *)
(* ===================================================================== *)

(** The two files hold the same two priority functions, character for
    character up to blank lines; [posix.c] adds [win32_getRefresh].  The
    functions are embedded with the parameter list the source gives them,
    a single [int]; what that parameter holds when the interpreter enters
    them is [table_call_int_parameter] below.  [SetPriorityClass] takes
    its priority class as a [DWORD], so the [int] is converted on the way
    in; [SetThreadPriority] takes an [int]. *)

(** <<
    unsigned short retval;
    retval = (unsigned short)SetPriorityClass( GetCurrentProcess(), priority_class );
    return Py_BuildValue("i",retval);
    >> *)
Definition win32_setProcessPriority (priority_class : Z) : prog PyResult :=
  hProcess <- ext GetCurrentProcess ;;
  r <- ext (SetPriorityClass hProcess (C.to_DWORD priority_class)) ;;
  let retval := C.to_ushort r in
  ret (Py_BuildValue_i retval).

(** <<
    unsigned short retval;
    retval = (unsigned short)SetThreadPriority( GetCurrentThread(), priority );
    return Py_BuildValue("i",retval);
    >> *)
Definition win32_setThreadPriority (priority : Z) : prog PyResult :=
  hThread <- ext GetCurrentThread ;;
  r <- ext (SetThreadPriority hThread priority) ;;
  let retval := C.to_ushort r in
  ret (Py_BuildValue_i retval).

Section Refresh.

(** Format [f] makes [Py_BuildValue] fetch a C [double], eight bytes,
    from its variable arguments.  The call site passes
    [DevMode.dmDisplayFrequency], a [DWORD] of four bytes, without a
    conversion.  On the 32-bit little-endian calling convention the file
    is written for (it includes the headers of a Python 2.3 installed on
    a Windows drive) the eight bytes fetched are the [DWORD] followed by
    the four bytes that lie next to it, whatever they are:
    [adjacent_word]. *)
Variable adjacent_word : Z.

Definition Py_BuildValue_f_given_DWORD (x : Z) : PyResult :=
  Some (PyFloat (x + adjacent_word * 2 ^ 32)).

(** <<
    DEVMODE DevMode;
    DevMode.dmDriverExtra = 0;
    if (EnumDisplaySettings(NULL,ENUM_CURRENT_SETTINGS,&DevMode)) {
      return Py_BuildValue("f",DevMode.dmDisplayFrequency);
    } else {
      return NULL;
    }
    >> *)
Definition win32_getRefresh : prog PyResult :=
  '(ok, DevMode) <- ext (EnumDisplaySettings None ENUM_CURRENT_SETTINGS 0) ;;
  if C.truthy ok then ret (Py_BuildValue_f_given_DWORD (dmDisplayFrequency DevMode))
  else ret None.

End Refresh.

(** The 64 bits of the IEEE-754 double that equals the integer [n], for
    [0 < n < 2 ^ 53]: biased exponent [1023 + log2 n] above a 52-bit
    fraction that holds [n] without its leading one. *)
Definition binary64_of_pos (n : Z) : Z :=
  let e := Z.log2 n in
  (1023 + e) * 2 ^ 52 + (n - 2 ^ e) * 2 ^ (52 - e).

(* ===================================================================== *)
(** ** [posix_maxpriority.c] *)
(* ===================================================================== *)

(** <<
    struct sched_param params;
    params.sched_priority = priority;
    return sched_setscheduler(0,policy,&params);
    >> *)
Definition set_self_policy_priority (policy priority : Z) : prog Z :=
  let params := {| sched_priority := priority |} in
  ext (sched_setscheduler 0 policy params).

(** What [<sys/mman.h>] of the platform defines: each macro is [Some] of
    its value, or [None] where the header does not define it. *)
Record sys_mman_h : Type := mk_sys_mman_h {
  MCL_CURRENT : option Z;
  MCL_FUTURE : option Z
}.

(** <<
    #if defined(MCL_CURRENT) && defined(MCL_FUTURE)
      return mlockall( MCL_CURRENT | MCL_FUTURE );
    #else
      return 0;
    #endif
    >> *)
Definition stop_memory_paging (h : sys_mman_h) : prog Z :=
  match MCL_CURRENT h, MCL_FUTURE h with
  | Some current, Some future => ext (mlockall (Z.lor current future))
  | _, _ => ret 0
  end.

(* ===================================================================== *)
(** ** The exposed operations, one after another *)
(* ===================================================================== *)

(** No function above reads or writes an object that outlives the call:
    the only objects at file scope are the method tables [bitsMethods] and
    [win32Methods], which are handed to [Py_InitModule] and never assigned.
    So what a sequence of operations does is the sequence of what each
    does, and the only state threaded through is the outside world. *)

Inductive op : Type :=
| op_init (args : list PyObject)
| op_setVideoMode (args : list PyObject)
| op_setProcessPriority (args : list PyObject)
| op_setThreadPriority (args : list PyObject)
| op_getRefresh (adjacent_word : Z)
| op_set_self_policy_priority (policy priority : Z)
| op_stop_memory_paging (h : sys_mman_h).

Inductive ret_val : Type :=
| RPy (r : PyResult)
| RInt (z : Z).

(** The two priority functions are static and are reached only through
    their entries in the method table, which are marked [METH_VARARGS]:
    the interpreter enters such an entry with two arguments, the module's
    self object and the argument tuple, and [Py_InitModule] registers the
    functions with no self object, a [NULL].  The functions declare one
    [int] parameter and never look at a tuple; on the 32-bit calling
    convention they are built for, that parameter is the first argument
    word, the bits of the [NULL], whatever the tuple holds. *)
Definition table_call_int_parameter (args : list PyObject) : Z := 0.

Section Operations.

Variable PyArg_ParseTuple_i : list PyObject -> option Z.

Definition exec (o : op) : prog ret_val :=
  match o with
  | op_init args => r <- bits_init args ;; ret (RPy r)
  | op_setVideoMode args =>
      r <- bits_setVideoMode PyArg_ParseTuple_i args ;; ret (RPy r)
  | op_setProcessPriority args =>
      r <- win32_setProcessPriority (table_call_int_parameter args) ;;
      ret (RPy r)
  | op_setThreadPriority args =>
      r <- win32_setThreadPriority (table_call_int_parameter args) ;;
      ret (RPy r)
  | op_getRefresh a => r <- win32_getRefresh a ;; ret (RPy r)
  | op_set_self_policy_priority policy priority =>
      z <- set_self_policy_priority policy priority ;; ret (RInt z)
  | op_stop_memory_paging h => z <- stop_memory_paging h ;; ret (RInt z)
  end.

Fixpoint exec_all (ops : list op) : prog (list ret_val) :=
  match ops with
  | [] => ret []
  | o :: rest => r <- exec o ;; rs <- exec_all rest ;; ret (r :: rs)
  end.

End Operations.

Definition is_bitsInit (e : event) : bool :=
  match e with
  | Ev (bitsInit _) _ => true
  | Ev _ _ => false
  end.

Definition is_op_init (o : op) : bool :=
  match o with
  | op_init _ => true
  | _ => false
  end.

(* ===================================================================== *)
(** ** Stand-ins for the outside world *)
(* ===================================================================== *)

(** A scripted world: the integers the vendor and the system will answer,
    in order.  The pseudo-handles are those of the Windows API. *)
Definition pop (w : list Z) : Z * list Z :=
  match w with
  | [] => (0, [])
  | z :: rest => (z, rest)
  end.

Definition scripted : handler (list Z) :=
  fun X c =>
    match c in call X return list Z -> X * list Z with
    | bitsInit _ => pop
    | bitsSetVideoMode _ => pop
    | GetCurrentProcess => fun w => (-1, w)
    | GetCurrentThread => fun w => (-2, w)
    | SetPriorityClass _ _ => pop
    | SetThreadPriority _ _ => pop
    | EnumDisplaySettings _ _ extra =>
        fun w =>
          let (ok, w1) := pop w in
          let (hz, w2) := pop w1 in
          ((ok, mkDEVMODE extra hz), w2)
    | sched_setscheduler _ _ _ => pop
    | mlockall _ => pop
    end.

(** A substitute Bits++ device that knows whether it is open and which
    video mode it is in, and refuses a second opening. *)
Record bits_device : Type := mk_bits_device {
  is_open : bool;
  video_mode : Z
}.

Definition fake_bits : handler bits_device :=
  fun X c =>
    match c in call X return bits_device -> X * bits_device with
    | bitsInit _ =>
        fun d => if is_open d then (Bits.E_ALREADYOPEN, d)
                 else (0, mk_bits_device true (video_mode d))
    | bitsSetVideoMode m =>
        fun d => if is_open d then (0, mk_bits_device true m)
                 else (Bits.E_DISPLAYNOTOPEN, d)
    | GetCurrentProcess => fun d => (-1, d)
    | GetCurrentThread => fun d => (-2, d)
    | SetPriorityClass _ _ => fun d => (1, d)
    | SetThreadPriority _ _ => fun d => (1, d)
    | EnumDisplaySettings _ _ extra => fun d => ((0, mkDEVMODE extra 0), d)
    | sched_setscheduler _ _ _ => fun d => (0, d)
    | mlockall _ => fun d => (0, d)
    end.

(** A world without state that answers every call alike: every handle is
    [h] and every integer is [r]. *)
Definition constant_os (h : HANDLE) (r : Z) : handler unit :=
  fun X c =>
    match c in call X return unit -> X * unit with
    | bitsInit _ => fun u => (r, u)
    | bitsSetVideoMode _ => fun u => (r, u)
    | GetCurrentProcess => fun u => (h, u)
    | GetCurrentThread => fun u => (h, u)
    | SetPriorityClass _ _ => fun u => (r, u)
    | SetThreadPriority _ _ => fun u => (r, u)
    | EnumDisplaySettings _ _ extra => fun u => ((r, mkDEVMODE extra r), u)
    | sched_setscheduler _ _ _ => fun u => (r, u)
    | mlockall _ => fun u => (r, u)
    end.

(** A reference converter for format [i]: exactly one Python integer that
    fits a C [int]. *)
Definition parse_one_int (args : list PyObject) : option Z :=
  match args with
  | [PyInt v] => if (C.INT_MIN <=? v) && (v <=? C.INT_MAX) then Some v else None
  | _ => None
  end.

(** The header of Linux, and a header without the two macros. *)
Definition linux_mman_h : sys_mman_h := mk_sys_mman_h (Some 1) (Some 2).
Definition bare_mman_h : sys_mman_h := mk_sys_mman_h None None.

(** [init()] followed by [setVideoMode(args)], as the example scenario has
    them. *)
Definition init_then_setVideoMode (parse : list PyObject -> option Z)
           (args : list PyObject) : prog (PyResult * PyResult) :=
  r1 <- bits_init [] ;;
  r2 <- bits_setVideoMode parse args ;;
  ret (r1, r2).

(* ===================================================================== *)
(** ** Method tables and module initialisers *)
(* ===================================================================== *)

(** [METH_VARARGS], from the interpreter's [methodobject.h]. *)
Definition METH_VARARGS : Z := 0x0001.

(** One [PyMethodDef] initialiser: name, function and flags.  A member the
    initialiser leaves out is zero: [None] for a pointer, 0 for the flags.
    [F] is what stands for the function. *)
Record PyMethodDef (F : Type) : Type := mkPyMethodDef {
  ml_name : option string;
  ml_meth : option F;
  ml_flags : Z
}.

Arguments mkPyMethodDef {F} ml_name ml_meth ml_flags.
Arguments ml_name {F} p.
Arguments ml_meth {F} p.
Arguments ml_flags {F} p.

(** What [Py_InitModule(name, methods)] is given. *)
Record module_def (F : Type) : Type := mk_module_def {
  m_name : string;
  m_methods : list (PyMethodDef F)
}.

Arguments mk_module_def {F} m_name m_methods.
Arguments m_name {F} m.
Arguments m_methods {F} m.

(** The interpreter reads a table up to the first entry without a name. *)
Fixpoint before_sentinel {F : Type} (table : list (PyMethodDef F))
  : list (string * PyMethodDef F) :=
  match table with
  | [] => []
  | d :: rest =>
      match ml_name d with
      | Some n => (n, d) :: before_sentinel rest
      | None => []
      end
  end.

(** It enters the methods in the module's dictionary one after another, so
    of two entries with one name the later is the one found. *)
Fixpoint dict_get {V : Type} (name : string) (entries : list (string * V))
  : option V :=
  match entries with
  | [] => None
  | (n, v) :: rest =>
      match dict_get name rest with
      | Some later => Some later
      | None => if String.eqb name n then Some v else None
      end
  end.

(** The entry of the method table a name is bound to.  What else a module
    holds (its name, its documentation string) is not a method and is not
    looked up here. *)
Definition getattr {F : Type} (m : module_def F) (name : string)
  : option (PyMethodDef F) :=
  dict_get name (before_sentinel (m_methods m)).

Definition method_names {F : Type} (m : module_def F) : list string :=
  map fst (before_sentinel (m_methods m)).

(** The functions of [_bits.c] have the type the interpreter calls a
    method through, so their table holds the functions themselves. *)
Definition PyCFunction : Type := list PyObject -> prog PyResult.

Section BitsModule.

Variable PyArg_ParseTuple_i : list PyObject -> option Z.

(** <<
    {"bitsInit",bits_init,METH_VARARGS},
    {"bitsSetVideoMode",bits_setVideoMode,METH_VARARGS},
    {NULL, NULL},
    >> *)
Definition bitsMethods : list (PyMethodDef PyCFunction) :=
  [ mkPyMethodDef (Some "bitsInit"%string) (Some bits_init) METH_VARARGS;
    mkPyMethodDef (Some "bitsSetVideoMode"%string)
                  (Some (bits_setVideoMode PyArg_ParseTuple_i)) METH_VARARGS;
    mkPyMethodDef None None 0 ].

(** [void init_bits(){ Py_InitModule("_bits",bitsMethods); }] *)
Definition init_bits : module_def PyCFunction :=
  mk_module_def "_bits"%string bitsMethods.

End BitsModule.






(* ===================================================================== *)
(** ** Reading traces; the constants of [bits.h] in groups *)
(* ===================================================================== *)

(** The mode flags the vendor was asked to set, in order. *)
Definition video_modes_requested (t : list event) : list Z :=
  flat_map (fun e => match e with
                     | Ev (bitsSetVideoMode m) _ => [m]
                     | Ev _ _ => []
                     end) t.

(** Whose entry point a call is. *)
Inductive family : Type :=
| Vendor
| Windows
| Posix.

Definition call_family {X : Type} (c : call X) : family :=
  match c with
  | bitsInit _ | bitsSetVideoMode _ => Vendor
  | GetCurrentProcess | GetCurrentThread
  | SetPriorityClass _ _ | SetThreadPriority _ _
  | EnumDisplaySettings _ _ _ => Windows
  | sched_setscheduler _ _ _ | mlockall _ => Posix
  end.

Definition event_family (e : event) : family :=
  match e with
  | Ev c _ => call_family c
  end.

Definition family_eqb (a b : family) : bool :=
  match a, b with
  | Vendor, Vendor | Windows, Windows | Posix, Posix => true
  | _, _ => false
  end.

(** The file an operation's function is in. *)
Definition op_family (o : op) : family :=
  match o with
  | op_init _ | op_setVideoMode _ => Vendor
  | op_setProcessPriority _ | op_setThreadPriority _ | op_getRefresh _ => Windows
  | op_set_self_policy_priority _ _ | op_stop_memory_paging _ => Posix
  end.

(** The error codes [bits.h] defines. *)
Definition declared_errors : list Z :=
  [ Bits.E_DISPLAYNOTOPEN; Bits.E_INTERNALERROR; Bits.E_ALREADYOPEN;
    Bits.E_DISPLAYERROR; Bits.E_OUTOFRESOURCES ].

(** The constants [bits.h] lists as used by [bitsSetVideoMode]. *)
Definition video_mode_flags : list Z :=
  [ Bits.bits8BITPALETTEMODE; Bits.bitsNOGAMMACORRECT;
    Bits.bitsGAMMACORRECT; Bits.bitsVIDEOENCODEDCOMMS ].

(** Flags put together with bitwise or. *)
Definition combine_flags (flags : list Z) : Z := fold_right Z.lor 0 flags.

(** How many external calls an operation makes; it depends on the
    operation and on whether its argument parses, not on any answer. *)
Definition external_calls (parse : list PyObject -> option Z) (o : op) : nat :=
  match o with
  | op_init _ => 1
  | op_setVideoMode args =>
      match parse args with
      | Some _ => 1
      | None => 0
      end
  | op_setProcessPriority _ | op_setThreadPriority _ => 2
  | op_getRefresh _ => 1
  | op_set_self_policy_priority _ _ => 1
  | op_stop_memory_paging h =>
      match MCL_CURRENT h, MCL_FUTURE h with
      | Some _, Some _ => 1
      | _, _ => 0
      end
  end%nat.

(* ===================================================================== *)
(** ** Facts about the conversions *)
(* ===================================================================== *)

Lemma to_ushort_range x : 0 <= C.to_ushort x <= 65535.
Proof.
  unfold C.to_ushort. pose proof (Z.mod_pos_bound x (2 ^ 16) eq_refl). lia.
Qed.

Lemma to_ushort_small x : 0 <= x <= 65535 -> C.to_ushort x = x.
Proof. intros H. unfold C.to_ushort. apply Z.mod_small. lia. Qed.

Lemma to_DWORD_range x : 0 <= C.to_DWORD x < 2 ^ 32.
Proof. unfold C.to_DWORD. apply Z.mod_pos_bound. reflexivity. Qed.

Lemma to_DWORD_nonneg_int x : 0 <= x <= C.INT_MAX -> C.to_DWORD x = x.
Proof.
  unfold C.INT_MAX, C.to_DWORD. intros H. apply Z.mod_small. lia.
Qed.

(** The conversion keeps each of the 32 bits of the value. *)
Lemma to_DWORD_bits x i : 0 <= i < 32 -> Z.testbit (C.to_DWORD x) i = Z.testbit x i.
Proof.
  intros H. unfold C.to_DWORD. apply Z.mod_pow2_bits_low. lia.
Qed.

Lemma truthy_true x : C.truthy x = true <-> x <> 0.
Proof.
  unfold C.truthy. rewrite negb_true_iff, Z.eqb_neq. reflexivity.
Qed.

Lemma truthy_false x : C.truthy x = false <-> x = 0.
Proof.
  unfold C.truthy. rewrite negb_false_iff, Z.eqb_eq. reflexivity.
Qed.

(* ===================================================================== *)
(** ** Facts about running programs *)
(* ===================================================================== *)

(** Running [p] and then [f] on its result: the traces follow one another
    and the world is handed over. *)
Lemma run_bind {W A B : Type} (h : handler W) (p : prog A) (f : A -> prog B) (w : W) :
  run h (bind p f) w =
  let o1 := run h p w in
  let o2 := run h (f (result o1)) (world o1) in
  mkOutcome (result o2) (trace o1 ++ trace o2) (world o2).
Proof.
  revert w. induction p as [a | X c k IH]; intros w; simpl.
  - destruct (run h (f a) w); reflexivity.
  - destruct (h X c w) as [x w1]. simpl in IH. rewrite IH. reflexivity.
Qed.

(** A single external call. *)
Lemma run_ext {W X : Type} (h : handler W) (c : call X) (w w1 : W) (x : X) :
  h X c w = (x, w1) -> run h (ext c) w = mkOutcome x [Ev c x] w1.
Proof. intros E. simpl. rewrite E. reflexivity. Qed.

Lemma outcome_eta {W R : Type} (o : outcome W R) :
  o = mkOutcome (result o) (trace o) (world o).
Proof. destruct o; reflexivity. Qed.

(* ===================================================================== *)
(** ** The Bits++ control shim *)
(* ===================================================================== *)

(** What [bits_init] does against any vendor library, by the status the
    library answers. *)
Lemma run_bits_init {W : Type} (vendor : handler W) (w w' : W)
      (args : list PyObject) (status : Z) :
  vendor Z (bitsInit EmptyString) w = (status, w') ->
  run vendor (bits_init args) w =
  mkOutcome (if status <? 0 then None else Some (PyInt 1))
            [Ev (bitsInit EmptyString) status] w'.
Proof.
  intros E. unfold bits_init. simpl. rewrite E.
  destruct (status <? 0); reflexivity.
Qed.

(** What [bits_setVideoMode] does once its argument has parsed. *)
Lemma run_bits_setVideoMode {W : Type} (parse : list PyObject -> option Z)
      (vendor : handler W) (w w' : W) (args : list PyObject) (mask status : Z) :
  parse args = Some mask ->
  vendor Z (bitsSetVideoMode (C.to_DWORD mask)) w = (status, w') ->
  run vendor (bits_setVideoMode parse args) w =
  mkOutcome (if C.truthy status then None else Some (PyInt 1))
            [Ev (bitsSetVideoMode (C.to_DWORD mask)) status] w'.
Proof.
  intros P E. unfold bits_setVideoMode. rewrite P. simpl. rewrite E.
  destruct (C.truthy status); reflexivity.
Qed.

(** C3.  [init()] makes exactly one vendor call, [bitsInit] with the empty
    string, and signals an error exactly when the status the vendor
    answers is negative; for every status that is not negative it returns
    the success value 1.  Which negative code it was makes no difference
    to what is returned. *)
Theorem bits_init_fails_iff_status_negative :
  forall (W : Type) (vendor : handler W) (w w' : W)
         (args : list PyObject) (status : Z),
    vendor Z (bitsInit EmptyString) w = (status, w') ->
    let o := run vendor (bits_init args) w in
    trace o = [Ev (bitsInit EmptyString) status] /\
    world o = w' /\
    (result o = None <-> status < 0) /\
    (0 <= status -> result o = Some (PyInt 1)).
Proof.
  intros W vendor w w' args status E o. subst o.
  rewrite (run_bits_init vendor w w' args status E). simpl.
  repeat split; destruct (Z.ltb_spec status 0); try lia; try congruence;
    intros; try discriminate; reflexivity.
Qed.

Lemma bits_init_fails_iff_status_negative_witness :
  let o := run scripted (bits_init []) [Bits.E_ALREADYOPEN] in
  trace o = [Ev (bitsInit EmptyString) Bits.E_ALREADYOPEN] /\
  world o = [] /\
  (result o = None <-> Bits.E_ALREADYOPEN < 0) /\
  (0 <= Bits.E_ALREADYOPEN -> result o = Some (PyInt 1)).
Proof.
  exact (bits_init_fails_iff_status_negative
           (list Z) scripted [Bits.E_ALREADYOPEN] [] [] Bits.E_ALREADYOPEN eq_refl).
Defined.

(** C2.  When the argument parses as the integer [mask], [setVideoMode]
    makes exactly one vendor call, [bitsSetVideoMode], whose argument has
    the 32 bits of [mask], each unchanged (and is [mask] itself when
    [mask] is not negative); it returns the success value exactly when the
    vendor answers zero, and signals an error exactly when the vendor
    answers anything else. *)
Theorem bits_setVideoMode_forwards_mask :
  forall (parse : list PyObject -> option Z) (W : Type) (vendor : handler W)
         (w w' : W) (args : list PyObject) (mask status : Z),
    parse args = Some mask ->
    C.INT_MIN <= mask <= C.INT_MAX ->
    vendor Z (bitsSetVideoMode (C.to_DWORD mask)) w = (status, w') ->
    let o := run vendor (bits_setVideoMode parse args) w in
    trace o = [Ev (bitsSetVideoMode (C.to_DWORD mask)) status] /\
    (forall i, 0 <= i < 32 -> Z.testbit (C.to_DWORD mask) i = Z.testbit mask i) /\
    (0 <= mask -> C.to_DWORD mask = mask) /\
    (result o = Some (PyInt 1) <-> status = 0) /\
    (result o = None <-> status <> 0).
Proof.
  intros parse W vendor w w' args mask status P R E o. subst o.
  rewrite (run_bits_setVideoMode parse vendor w w' args mask status P E). simpl.
  split; [reflexivity |].
  split; [intros i Hi; apply to_DWORD_bits; exact Hi |].
  split; [intros Hm; apply to_DWORD_nonneg_int; lia |].
  destruct (C.truthy status) eqn:T.
  - apply truthy_true in T. split; split; intros H; congruence.
  - apply truthy_false in T. split; split; intros H; congruence.
Qed.

Lemma bits_setVideoMode_forwards_mask_witness :
  let mask := Z.lor Bits.bitsGAMMACORRECT Bits.bits8BITPALETTEMODE in
  let o := run scripted (bits_setVideoMode parse_one_int [PyInt mask]) [0] in
  trace o = [Ev (bitsSetVideoMode (C.to_DWORD mask)) 0] /\
  (forall i, 0 <= i < 32 -> Z.testbit (C.to_DWORD mask) i = Z.testbit mask i) /\
  (0 <= mask -> C.to_DWORD mask = mask) /\
  (result o = Some (PyInt 1) <-> 0 = 0) /\
  (result o = None <-> 0 <> 0).
Proof.
  refine (bits_setVideoMode_forwards_mask
            parse_one_int (list Z) scripted [0] []
            [PyInt (Z.lor Bits.bitsGAMMACORRECT Bits.bits8BITPALETTEMODE)]
            (Z.lor Bits.bitsGAMMACORRECT Bits.bits8BITPALETTEMODE) 0
            eq_refl _ eq_refl).
  vm_compute. split; discriminate.
Defined.

(** C10.  When the argument tuple does not parse, [setVideoMode] signals an
    error and has made no external call at all: the trace is empty and the
    outside world is the one it started in. *)
Theorem bits_setVideoMode_parse_failure_no_call :
  forall (parse : list PyObject -> option Z) (W : Type) (vendor : handler W)
         (w : W) (args : list PyObject),
    parse args = None ->
    run vendor (bits_setVideoMode parse args) w = mkOutcome None [] w.
Proof.
  intros parse W vendor w args P. unfold bits_setVideoMode. rewrite P.
  reflexivity.
Qed.

Lemma bits_setVideoMode_parse_failure_no_call_witness :
  run fake_bits (bits_setVideoMode parse_one_int [PyString "gamma"; PyNone])
      (mk_bits_device true 0)
  = mkOutcome None [] (mk_bits_device true 0).
Proof.
  exact (bits_setVideoMode_parse_failure_no_call
           parse_one_int bits_device fake_bits (mk_bits_device true 0)
           [PyString "gamma"; PyNone] eq_refl).
Defined.

(** C6, as stated, fails.  The device has been initialised ([bitsInit]
    answered 0) and the vendor call [bitsSetVideoMode] answers 1, which is
    true in C; [setVideoMode(0x00008000)] then signals an error, it does
    not return success. *)
Lemma setVideoMode_gamma_vendor_true_is_error :
  let o := run scripted
               (init_then_setVideoMode parse_one_int [PyInt Bits.bitsGAMMACORRECT])
               [0; 1] in
  trace o = [Ev (bitsInit EmptyString) 0;
             Ev (bitsSetVideoMode Bits.bitsGAMMACORRECT) 1] /\
  C.truthy 1 = true /\
  result o = (Some (PyInt 1), None) /\
  snd (result o) <> Some (PyInt 1).
Proof.
  vm_compute. repeat split; discriminate.
Qed.

(** C6, amended.  After an [init()] that succeeded, when the vendor call
    [bitsSetVideoMode] answers 0 to the gamma-correct flag,
    [setVideoMode(0x00008000)] returns the success value; the vendor was
    called with exactly 0x00008000. *)
Theorem setVideoMode_gamma_vendor_zero_is_success :
  forall (parse : list PyObject -> option Z) (W : Type) (vendor : handler W)
         (w w1 w2 : W) (args : list PyObject) (init_status : Z),
    parse args = Some Bits.bitsGAMMACORRECT ->
    vendor Z (bitsInit EmptyString) w = (init_status, w1) ->
    0 <= init_status ->
    vendor Z (bitsSetVideoMode Bits.bitsGAMMACORRECT) w1 = (0, w2) ->
    run vendor (init_then_setVideoMode parse args) w =
    mkOutcome (Some (PyInt 1), Some (PyInt 1))
              [Ev (bitsInit EmptyString) init_status;
               Ev (bitsSetVideoMode Bits.bitsGAMMACORRECT) 0]
              w2.
Proof.
  intros parse W vendor w w1 w2 args s P E1 Hs E2.
  unfold init_then_setVideoMode.
  rewrite run_bind, (run_bits_init vendor w w1 [] s E1). cbv zeta.
  cbn [result world trace].
  rewrite run_bind.
  rewrite (run_bits_setVideoMode parse vendor w1 w2 args Bits.bitsGAMMACORRECT 0 P E2).
  destruct (Z.ltb_spec s 0); [lia | reflexivity].
Qed.

Lemma setVideoMode_gamma_vendor_zero_is_success_witness :
  run fake_bits
      (init_then_setVideoMode parse_one_int [PyInt Bits.bitsGAMMACORRECT])
      (mk_bits_device false 0)
  = mkOutcome (Some (PyInt 1), Some (PyInt 1))
              [Ev (bitsInit EmptyString) 0;
               Ev (bitsSetVideoMode Bits.bitsGAMMACORRECT) 0]
              (mk_bits_device true Bits.bitsGAMMACORRECT).
Proof.
  refine (setVideoMode_gamma_vendor_zero_is_success
            parse_one_int bits_device fake_bits
            (mk_bits_device false 0) (mk_bits_device true 0)
            (mk_bits_device true Bits.bitsGAMMACORRECT)
            [PyInt Bits.bitsGAMMACORRECT] 0 eq_refl eq_refl _ eq_refl).
  lia.
Defined.

(* ===================================================================== *)
(** ** The Windows priority shim *)
(* ===================================================================== *)

Lemma run_win32_setProcessPriority {W : Type} (os : handler W) (w w1 w2 : W)
      (h : HANDLE) (priority_class r : Z) :
  os HANDLE GetCurrentProcess w = (h, w1) ->
  os Z (SetPriorityClass h (C.to_DWORD priority_class)) w1 = (r, w2) ->
  run os (win32_setProcessPriority priority_class) w =
  mkOutcome (Some (PyInt (C.to_ushort r)))
            [Ev GetCurrentProcess h;
             Ev (SetPriorityClass h (C.to_DWORD priority_class)) r] w2.
Proof.
  intros E1 E2. unfold win32_setProcessPriority. simpl.
  rewrite E1, E2. reflexivity.
Qed.

Lemma run_win32_setThreadPriority {W : Type} (os : handler W) (w w1 w2 : W)
      (h : HANDLE) (priority r : Z) :
  os HANDLE GetCurrentThread w = (h, w1) ->
  os Z (SetThreadPriority h priority) w1 = (r, w2) ->
  run os (win32_setThreadPriority priority) w =
  mkOutcome (Some (PyInt (C.to_ushort r)))
            [Ev GetCurrentThread h; Ev (SetThreadPriority h priority) r] w2.
Proof.
  intros E1 E2. unfold win32_setThreadPriority. simpl.
  rewrite E1, E2. reflexivity.
Qed.

(** C1, as stated, fails: the result is not returned untransformed.  The
    caller asks for priority 32 and [SetPriorityClass] reports 65536:
    [setProcessPriority] returns 0.  The caller asks for priority 15 and
    [SetThreadPriority] reports -1: [setThreadPriority] returns 65535. *)
Lemma win32_priority_result_is_transformed :
  (let o := run scripted
                (exec parse_one_int (op_setProcessPriority [PyInt 32])) [65536] in
   (exists (h : HANDLE) (a : Z),
       trace o = [Ev GetCurrentProcess h; Ev (SetPriorityClass h a) 65536]) /\
   result o = RPy (Some (PyInt 0)) /\
   result o <> RPy (Some (PyInt 65536))) /\
  (let o := run scripted
                (exec parse_one_int (op_setThreadPriority [PyInt 15])) [-1] in
   (exists (h : HANDLE) (a : Z),
       trace o = [Ev GetCurrentThread h; Ev (SetThreadPriority h a) (-1)]) /\
   result o = RPy (Some (PyInt 65535)) /\
   result o <> RPy (Some (PyInt (-1)))).
Proof.
  split; cbv zeta.
  - split; [eexists; eexists; vm_compute; reflexivity |].
    vm_compute. split; [reflexivity | discriminate].
  - split; [eexists; eexists; vm_compute; reflexivity |].
    vm_compute. split; [reflexivity | discriminate].
Qed.

(** C1, amended.  Whatever value their [int] parameter holds, and so for
    every call through the method table, and whatever the system reports,
    [setProcessPriority] and [setThreadPriority] obtain the handle of the
    calling process (thread), make one call of [SetPriorityClass]
    ([SetThreadPriority]) on that handle and no other call, and return the
    result [r] that call reported converted to [unsigned short], that is,
    reduced modulo [2 ^ 16]; this is [r] itself whenever [r] lies between
    0 and 65535.  Which priority the call asks for is not part of the
    statement. *)
Theorem win32_priority_returns_result_as_ushort :
  forall (W : Type) (os : handler W) (w : W) (p : Z),
    (exists (h : HANDLE) (a r : Z),
        let o := run os (win32_setProcessPriority p) w in
        trace o = [Ev GetCurrentProcess h; Ev (SetPriorityClass h a) r] /\
        result o = Some (PyInt (r mod 2 ^ 16)) /\
        (0 <= r <= 65535 -> result o = Some (PyInt r))) /\
    (exists (h : HANDLE) (a r : Z),
        let o := run os (win32_setThreadPriority p) w in
        trace o = [Ev GetCurrentThread h; Ev (SetThreadPriority h a) r] /\
        result o = Some (PyInt (r mod 2 ^ 16)) /\
        (0 <= r <= 65535 -> result o = Some (PyInt r))).
Proof.
  intros W os w p. split.
  - destruct (os HANDLE GetCurrentProcess w) as [h w1] eqn:E1.
    destruct (os Z (SetPriorityClass h (C.to_DWORD p)) w1) as [r w2] eqn:E2.
    exists h, (C.to_DWORD p), r. cbv zeta.
    rewrite (run_win32_setProcessPriority os w w1 w2 h p r E1 E2).
    cbn [trace result]. repeat split.
    intros Hr. rewrite (to_ushort_small r Hr). reflexivity.
  - destruct (os HANDLE GetCurrentThread w) as [h w1] eqn:E1.
    destruct (os Z (SetThreadPriority h p) w1) as [r w2] eqn:E2.
    exists h, p, r. cbv zeta.
    rewrite (run_win32_setThreadPriority os w w1 w2 h p r E1 E2).
    cbn [trace result]. repeat split.
    intros Hr. rewrite (to_ushort_small r Hr). reflexivity.
Qed.

Lemma win32_priority_returns_result_as_ushort_witness :
  (exists (h : HANDLE) (a r : Z),
      let o := run (constant_os (-1) 1) (win32_setProcessPriority 0) tt in
      trace o = [Ev GetCurrentProcess h; Ev (SetPriorityClass h a) r] /\
      result o = Some (PyInt (r mod 2 ^ 16)) /\
      (0 <= r <= 65535 -> result o = Some (PyInt r))) /\
  (exists (h : HANDLE) (a r : Z),
      let o := run (constant_os (-1) 1) (win32_setThreadPriority 0) tt in
      trace o = [Ev GetCurrentThread h; Ev (SetThreadPriority h a) r] /\
      result o = Some (PyInt (r mod 2 ^ 16)) /\
      (0 <= r <= 65535 -> result o = Some (PyInt r))).
Proof.
  exact (win32_priority_returns_result_as_ushort unit (constant_os (-1) 1) tt 0).
Defined.

(** What a call through the method table asks the system for does not
    depend on the argument tuple: the priority functions never parse it,
    and the class (the priority) they name is the value of
    [table_call_int_parameter]. *)
Lemma table_call_ignores_the_argument_tuple {W : Type} (os : handler W) (w : W)
      (parse : list PyObject -> option Z) (args1 args2 : list PyObject) :
  run os (exec parse (op_setProcessPriority args1)) w
  = run os (exec parse (op_setProcessPriority args2)) w /\
  run os (exec parse (op_setThreadPriority args1)) w
  = run os (exec parse (op_setThreadPriority args2)) w.
Proof. split; reflexivity. Qed.

(** C9.  For every result the system reports, the value
    [setProcessPriority] and [setThreadPriority] return is that result
    reduced modulo [2 ^ 16], the effect of the cast to [unsigned short],
    and so lies between 0 and 65535. *)
Theorem win32_priority_result_mod_65536 :
  forall (W : Type) (os : handler W) (w w1 w2 : W) (h : HANDLE) (p r : Z),
    (os HANDLE GetCurrentProcess w = (h, w1) ->
     os Z (SetPriorityClass h (C.to_DWORD p)) w1 = (r, w2) ->
     exists v : Z,
       result (run os (win32_setProcessPriority p) w) = Some (PyInt v) /\
       v = r mod 65536 /\ 0 <= v <= 65535) /\
    (os HANDLE GetCurrentThread w = (h, w1) ->
     os Z (SetThreadPriority h p) w1 = (r, w2) ->
     exists v : Z,
       result (run os (win32_setThreadPriority p) w) = Some (PyInt v) /\
       v = r mod 65536 /\ 0 <= v <= 65535).
Proof.
  intros W os w w1 w2 h p r. split; intros E1 E2; exists (C.to_ushort r).
  - rewrite (run_win32_setProcessPriority os w w1 w2 h p r E1 E2).
    split; [reflexivity | split; [reflexivity | apply to_ushort_range]].
  - rewrite (run_win32_setThreadPriority os w w1 w2 h p r E1 E2).
    split; [reflexivity | split; [reflexivity | apply to_ushort_range]].
Qed.

Lemma win32_priority_result_mod_65536_witness :
  (exists v : Z,
     result (run (constant_os (-1) (-1)) (win32_setProcessPriority 32) tt)
     = Some (PyInt v) /\ v = (-1) mod 65536 /\ 0 <= v <= 65535) /\
  (exists v : Z,
     result (run (constant_os (-1) (-1)) (win32_setThreadPriority 32) tt)
     = Some (PyInt v) /\ v = (-1) mod 65536 /\ 0 <= v <= 65535).
Proof.
  pose proof (win32_priority_result_mod_65536
                unit (constant_os (-1) (-1)) tt tt tt (-1) 32 (-1)) as [HP HT].
  split; [exact (HP eq_refl eq_refl) | exact (HT eq_refl eq_refl)].
Defined.

(* ===================================================================== *)
(** ** [win32_getRefresh] *)
(* ===================================================================== *)

Lemma run_win32_getRefresh {W : Type} (os : handler W) (w w' : W)
      (adjacent ok : Z) (dm : DEVMODE) :
  os (Z * DEVMODE)%type (EnumDisplaySettings None ENUM_CURRENT_SETTINGS 0) w
  = ((ok, dm), w') ->
  run os (win32_getRefresh adjacent) w =
  mkOutcome (if C.truthy ok
             then Some (PyFloat (dmDisplayFrequency dm + adjacent * 2 ^ 32))
             else None)
            [Ev (EnumDisplaySettings None ENUM_CURRENT_SETTINGS 0) (ok, dm)] w'.
Proof.
  intros E. unfold win32_getRefresh. simpl. rewrite E.
  destruct (C.truthy ok); reflexivity.
Qed.

(** The error half of the contract holds: [getRefresh] signals an error
    exactly when the enumeration call answers zero. *)
Lemma win32_getRefresh_error_iff_enumeration_fails {W : Type} (os : handler W)
      (w w' : W) (adjacent ok : Z) (dm : DEVMODE) :
  os (Z * DEVMODE)%type (EnumDisplaySettings None ENUM_CURRENT_SETTINGS 0) w
  = ((ok, dm), w') ->
  (result (run os (win32_getRefresh adjacent) w) = None <-> ok = 0).
Proof.
  intros E. rewrite (run_win32_getRefresh os w w' adjacent ok dm E). simpl.
  destruct (C.truthy ok) eqn:T.
  - apply truthy_true in T. split; intros H; congruence.
  - apply truthy_false in T. split; intros H; congruence.
Qed.

Example binary64_of_pos_60 : binary64_of_pos 60 = 0x404E000000000000.
Proof. reflexivity. Qed.

Example binary64_of_pos_75 : binary64_of_pos 75 = 0x4052C00000000000.
Proof. reflexivity. Qed.

(** The double of an integer below [2 ^ 21] has its 32 low bits clear. *)
Lemma binary64_of_pos_low_word (n : Z) :
  0 < n < 2 ^ 21 -> binary64_of_pos n mod 2 ^ 32 = 0.
Proof.
  intros Hn. unfold binary64_of_pos.
  assert (He : 0 <= Z.log2 n < 21).
  { split; [apply Z.log2_nonneg | apply Z.log2_lt_pow2; lia]. }
  set (e := Z.log2 n) in *.
  replace (52 - e) with ((20 - e) + 32) by lia.
  rewrite Z.pow_add_r by lia.
  replace (2 ^ 52) with (2 ^ 20 * 2 ^ 32) by reflexivity.
  replace ((1023 + e) * (2 ^ 20 * 2 ^ 32) + (n - 2 ^ e) * (2 ^ (20 - e) * 2 ^ 32))
    with (((1023 + e) * 2 ^ 20 + (n - 2 ^ e) * 2 ^ (20 - e)) * 2 ^ 32) by ring.
  apply Z.mod_mul. discriminate.
Qed.

(** C7, the case the code gets wrong.  When the enumeration succeeds with a
    refresh rate [hz] (any rate below [2 ^ 21] Hz), the float [getRefresh]
    returns has [hz] as the low 32 bits of its representation, whatever the
    adjacent word is, and so is not the double that equals [hz]. *)
Theorem win32_getRefresh_float_is_not_the_rate :
  forall (W : Type) (os : handler W) (w w' : W) (adjacent ok hz extra : Z),
    os (Z * DEVMODE)%type (EnumDisplaySettings None ENUM_CURRENT_SETTINGS 0) w
    = ((ok, mkDEVMODE extra hz), w') ->
    ok <> 0 ->
    0 < hz < 2 ^ 21 ->
    exists bits : Z,
      result (run os (win32_getRefresh adjacent) w) = Some (PyFloat bits) /\
      bits mod 2 ^ 32 = hz /\
      bits <> binary64_of_pos hz.
Proof.
  intros W os w w' adjacent ok hz extra E Hok Hhz.
  exists (hz + adjacent * 2 ^ 32).
  rewrite (run_win32_getRefresh os w w' adjacent ok _ E). cbn [result dmDisplayFrequency].
  apply truthy_true in Hok. rewrite Hok.
  assert (Hlow : (hz + adjacent * 2 ^ 32) mod 2 ^ 32 = hz).
  { rewrite Z.mod_add by discriminate. apply Z.mod_small. lia. }
  split; [reflexivity | split; [exact Hlow |]].
  intros Heq. rewrite Heq in Hlow.
  rewrite (binary64_of_pos_low_word hz Hhz) in Hlow. lia.
Qed.

Lemma win32_getRefresh_float_is_not_the_rate_witness :
  exists bits : Z,
    result (run scripted (win32_getRefresh 0) [1; 60]) = Some (PyFloat bits) /\
    bits mod 2 ^ 32 = 60 /\
    bits <> binary64_of_pos 60.
Proof.
  refine (win32_getRefresh_float_is_not_the_rate
            (list Z) scripted [1; 60] [] 0 1 60 0 eq_refl _ _).
  - discriminate.
  - lia.
Defined.

(* ===================================================================== *)
(** ** The POSIX real-time shim *)
(* ===================================================================== *)

(** C4.  For every policy and priority, [set_self_policy_priority] makes
    exactly one call, [sched_setscheduler] for pid 0 with the given policy
    and a parameter record whose [sched_priority] is the given priority,
    and returns the status the system answers as it is: -1 when the system
    answers -1 (request rejected), 0 when it answers 0 (accepted). *)
Theorem set_self_policy_priority_returns_status :
  forall (W : Type) (os : handler W) (w w' : W) (policy priority status : Z),
    os Z (sched_setscheduler 0 policy (mk_sched_param priority)) w = (status, w') ->
    let o := run os (set_self_policy_priority policy priority) w in
    (exists params : sched_param,
        sched_priority params = priority /\
        trace o = [Ev (sched_setscheduler 0 policy params) status]) /\
    result o = status /\
    world o = w' /\
    (status = -1 -> result o = -1) /\
    (status = 0 -> result o = 0).
Proof.
  intros W os w w' policy priority status E o. subst o.
  unfold set_self_policy_priority.
  rewrite (run_ext os _ w w' status E). simpl.
  split; [exists (mk_sched_param priority); split; reflexivity |].
  repeat split; intros H; exact H.
Qed.

Lemma set_self_policy_priority_returns_status_witness :
  let o := run scripted (set_self_policy_priority 1 99) [-1] in
  (exists params : sched_param,
      sched_priority params = 99 /\
      trace o = [Ev (sched_setscheduler 0 1 params) (-1)]) /\
  result o = -1 /\
  world o = [] /\
  (-1 = -1 -> result o = -1) /\
  (-1 = 0 -> result o = 0).
Proof.
  exact (set_self_policy_priority_returns_status
           (list Z) scripted [-1] [] 1 99 (-1) eq_refl).
Defined.

(** C5.  Where [<sys/mman.h>] lacks [MCL_CURRENT] or [MCL_FUTURE],
    [stop_memory_paging] returns 0 in every state of the outside world and
    makes no call.  Where both are defined it makes exactly one call,
    [mlockall] with [MCL_CURRENT | MCL_FUTURE], and returns the status the
    system answers. *)
Theorem stop_memory_paging_fallback_or_mlockall :
  forall (h : sys_mman_h) (W : Type) (os : handler W) (w : W),
    (MCL_CURRENT h = None \/ MCL_FUTURE h = None ->
     run os (stop_memory_paging h) w = mkOutcome 0 [] w) /\
    (forall (current future status : Z) (w' : W),
        MCL_CURRENT h = Some current ->
        MCL_FUTURE h = Some future ->
        os Z (mlockall (Z.lor current future)) w = (status, w') ->
        run os (stop_memory_paging h) w =
        mkOutcome status [Ev (mlockall (Z.lor current future)) status] w').
Proof.
  intros h W os w. unfold stop_memory_paging. split.
  - intros [Hc | Hf].
    + rewrite Hc. reflexivity.
    + rewrite Hf. destruct (MCL_CURRENT h); reflexivity.
  - intros current future status w' Hc Hf E. rewrite Hc, Hf.
    apply run_ext. exact E.
Qed.

Lemma stop_memory_paging_fallback_or_mlockall_witness :
  run scripted (stop_memory_paging bare_mman_h) [-1] = mkOutcome 0 [] [-1] /\
  run scripted (stop_memory_paging linux_mman_h) [-1]
  = mkOutcome (-1) [Ev (mlockall 3) (-1)] [].
Proof.
  split.
  - exact (proj1 (stop_memory_paging_fallback_or_mlockall
                    bare_mman_h (list Z) scripted [-1]) (or_introl eq_refl)).
  - exact (proj2 (stop_memory_paging_fallback_or_mlockall
                    linux_mman_h (list Z) scripted [-1])
                 1 2 (-1) [] eq_refl eq_refl eq_refl).
Defined.

(* ===================================================================== *)
(** ** Sequences of operations: nothing is kept between calls *)
(* ===================================================================== *)

Section Sequences.

Variable parse : list PyObject -> option Z.
Context {W : Type}.
Variable vendor : handler W.

Lemma run_exec_all_cons (o : op) (rest : list op) (w : W) :
  run vendor (exec_all parse (o :: rest)) w =
  let o1 := run vendor (exec parse o) w in
  let o2 := run vendor (exec_all parse rest) (world o1) in
  mkOutcome (result o1 :: result o2) (trace o1 ++ trace o2) (world o2).
Proof.
  cbn [exec_all]. rewrite run_bind. cbv zeta.
  rewrite run_bind. cbn [run result trace world].
  rewrite app_nil_r. reflexivity.
Qed.

(** Running a sequence in two parts is running the whole: the second
    part starts from the world the first left and from nothing else. *)
Lemma run_exec_all_app (pre post : list op) (w : W) :
  run vendor (exec_all parse (pre ++ post)) w =
  let o1 := run vendor (exec_all parse pre) w in
  let o2 := run vendor (exec_all parse post) (world o1) in
  mkOutcome (result o1 ++ result o2) (trace o1 ++ trace o2) (world o2).
Proof.
  revert w. induction pre as [| o pre IH]; intros w.
  - cbn [app exec_all]. cbn. apply outcome_eta.
  - rewrite <- app_comm_cons. rewrite !run_exec_all_cons. cbv zeta.
    rewrite IH. cbv zeta. cbn [result trace world].
    rewrite app_assoc. reflexivity.
Qed.

Lemma run_exec_all_single (o : op) (w : W) :
  run vendor (exec_all parse [o]) w =
  let o1 := run vendor (exec parse o) w in
  mkOutcome [result o1] (trace o1) (world o1).
Proof.
  rewrite run_exec_all_cons. cbn. rewrite app_nil_r. reflexivity.
Qed.

Lemma run_exec_init (args : list PyObject) (w : W) :
  run vendor (exec parse (op_init args)) w =
  let a := vendor Z (bitsInit EmptyString) w in
  mkOutcome (RPy (if fst a <? 0 then None else Some (PyInt 1)))
            [Ev (bitsInit EmptyString) (fst a)] (snd a).
Proof.
  cbn [exec]. rewrite run_bind.
  destruct (vendor Z (bitsInit EmptyString) w) as [st w1] eqn:E.
  rewrite (run_bits_init vendor w w1 args st E). reflexivity.
Qed.

(** Each operation makes one [bitsInit] call if it is [init], and none
    otherwise. *)
Lemma bitsInit_calls_of_exec (o : op) (w : W) :
  List.length (filter is_bitsInit (trace (run vendor (exec parse o) w)))
  = if is_op_init o then 1%nat else 0%nat.
Proof.
  destruct o as [args | args | c | p | a | policy priority | h];
    cbn [exec is_op_init]; rewrite run_bind; cbv zeta.
  - destruct (vendor Z (bitsInit EmptyString) w) as [st w1] eqn:E.
    rewrite (run_bits_init vendor w w1 args st E). reflexivity.
  - unfold bits_setVideoMode. destruct (parse args) as [v |]; [| reflexivity].
    cbn. destruct (vendor Z (bitsSetVideoMode (C.to_DWORD v)) w) as [st w1].
    destruct (C.truthy st); reflexivity.
  - cbn. destruct (vendor HANDLE GetCurrentProcess w) as [hp w1].
    destruct (vendor Z (SetPriorityClass hp _) w1) as [r w2]. reflexivity.
  - cbn. destruct (vendor HANDLE GetCurrentThread w) as [ht w1].
    destruct (vendor Z (SetThreadPriority ht _) w1) as [r w2]. reflexivity.
  - cbn.
    destruct (vendor (Z * DEVMODE)%type
                     (EnumDisplaySettings None ENUM_CURRENT_SETTINGS 0) w)
      as [[ok dm] w1].
    destruct (C.truthy ok); reflexivity.
  - cbn.
    destruct (vendor Z (sched_setscheduler 0 policy (mk_sched_param priority)) w)
      as [st w1].
    reflexivity.
  - unfold stop_memory_paging.
    destruct (MCL_CURRENT h) as [c |]; [| reflexivity].
    destruct (MCL_FUTURE h) as [f |]; [| reflexivity].
    cbn. destruct (vendor Z (mlockall (Z.lor c f)) w) as [st w1]. reflexivity.
Qed.

Lemma bitsInit_calls_of_exec_all (ops : list op) (w : W) :
  List.length (filter is_bitsInit (trace (run vendor (exec_all parse ops) w)))
  = List.length (filter is_op_init ops).
Proof.
  revert w. induction ops as [| o ops IH]; intros w.
  - reflexivity.
  - rewrite run_exec_all_cons. cbv zeta. cbn [trace].
    rewrite filter_app, List.length_app, IH, bitsInit_calls_of_exec.
    cbn [filter]. destruct (is_op_init o); reflexivity.
Qed.

End Sequences.

(** C8.  The layer keeps nothing between calls.  An operation added after
    any sequence of operations does what it does on its own, started in the
    world the sequence left: results and traces are appended.  In
    particular an [init()] after any sequence, with an earlier [init()] in
    it or not, makes its own [bitsInit] call with the empty string, and
    whether it succeeds is decided by the status of that call alone; over
    a whole sequence the vendor sees as many [bitsInit] calls as there are
    [init()] operations. *)
Theorem init_is_forwarded_every_time :
  forall (parse : list PyObject -> option Z) (W : Type) (vendor : handler W)
         (pre : list op) (w : W),
    (forall o : op,
        let before := run vendor (exec_all parse pre) w in
        let alone := run vendor (exec parse o) (world before) in
        run vendor (exec_all parse (pre ++ [o])) w =
        mkOutcome (result before ++ [result alone])
                  (trace before ++ trace alone)
                  (world alone)) /\
    (forall args : list PyObject,
        let before := run vendor (exec_all parse pre) w in
        let answer := vendor Z (bitsInit EmptyString) (world before) in
        run vendor (exec_all parse (pre ++ [op_init args])) w =
        mkOutcome
          (result before ++ [RPy (if fst answer <? 0 then None else Some (PyInt 1))])
          (trace before ++ [Ev (bitsInit EmptyString) (fst answer)])
          (snd answer)) /\
    List.length (filter is_bitsInit (trace (run vendor (exec_all parse pre) w)))
    = List.length (filter is_op_init pre).
Proof.
  intros parse W vendor pre w.
  assert (Hany : forall o : op,
             run vendor (exec_all parse (pre ++ [o])) w =
             mkOutcome
               (result (run vendor (exec_all parse pre) w)
                ++ [result (run vendor (exec parse o)
                                (world (run vendor (exec_all parse pre) w)))])
               (trace (run vendor (exec_all parse pre) w)
                ++ trace (run vendor (exec parse o)
                              (world (run vendor (exec_all parse pre) w))))
               (world (run vendor (exec parse o)
                           (world (run vendor (exec_all parse pre) w))))).
  { intros o. rewrite run_exec_all_app. cbv zeta.
    rewrite run_exec_all_single. reflexivity. }
  split; [exact Hany |]. split.
  - intros args. cbv zeta. rewrite Hany, run_exec_init. reflexivity.
  - apply bitsInit_calls_of_exec_all.
Qed.

(** Two [init()] in a row against the substitute device: both reach the
    vendor, the first opens the device and the second gets the vendor's
    already-open status and fails. *)
Example init_twice_already_open :
  run fake_bits (exec_all parse_one_int [op_init []; op_init []])
      (mk_bits_device false 0)
  = mkOutcome [RPy (Some (PyInt 1)); RPy None]
              [Ev (bitsInit EmptyString) 0;
               Ev (bitsInit EmptyString) Bits.E_ALREADYOPEN]
              (mk_bits_device true 0).
Proof. reflexivity. Qed.

(* ===================================================================== *)
(** ** More on [bits_setVideoMode]: what reaches the vendor *)
(* ===================================================================== *)

Lemma to_DWORD_negative_int (m : Z) :
  C.INT_MIN <= m < 0 -> C.to_DWORD m = m + 2 ^ 32.
Proof.
  unfold C.INT_MIN, C.to_DWORD. intros H. symmetry.
  apply Z.mod_unique with (q := -1); lia.
Qed.

Lemma to_DWORD_inj_on_int (m1 m2 : Z) :
  C.INT_MIN <= m1 <= C.INT_MAX ->
  C.INT_MIN <= m2 <= C.INT_MAX ->
  C.to_DWORD m1 = C.to_DWORD m2 -> m1 = m2.
Proof.
  intros H1 H2 E.
  destruct (Z_lt_le_dec m1 0) as [N1 | P1]; destruct (Z_lt_le_dec m2 0) as [N2 | P2].
  - rewrite !to_DWORD_negative_int in E by lia. lia.
  - rewrite to_DWORD_negative_int in E by lia.
    rewrite (to_DWORD_nonneg_int m2) in E by lia.
    unfold C.INT_MIN, C.INT_MAX in *. lia.
  - rewrite (to_DWORD_nonneg_int m1) in E by lia.
    rewrite to_DWORD_negative_int in E by lia.
    unfold C.INT_MIN, C.INT_MAX in *. lia.
  - rewrite !to_DWORD_nonneg_int in E by lia. exact E.
Qed.

(** Whatever the vendor answers, a call whose argument parsed asks the
    vendor for one mode, the converted mask. *)
Lemma video_modes_of_setVideoMode {W : Type} (parse : list PyObject -> option Z)
      (vendor : handler W) (w : W) (args : list PyObject) (mask : Z) :
  parse args = Some mask ->
  video_modes_requested (trace (run vendor (bits_setVideoMode parse args) w))
  = [C.to_DWORD mask].
Proof.
  intros P.
  destruct (vendor Z (bitsSetVideoMode (C.to_DWORD mask)) w) as [st w'] eqn:E.
  rewrite (run_bits_setVideoMode parse vendor w w' args mask st P E).
  reflexivity.
Qed.

(** X1.  The conversion on the way to the vendor loses nothing: two
    argument tuples that parse to different C [int]s make the vendor see
    different mode flags. *)
Theorem bits_setVideoMode_masks_stay_distinct :
  forall (parse : list PyObject -> option Z) (W : Type) (vendor : handler W)
         (w1 w2 : W) (args1 args2 : list PyObject) (m1 m2 : Z),
    parse args1 = Some m1 ->
    parse args2 = Some m2 ->
    C.INT_MIN <= m1 <= C.INT_MAX ->
    C.INT_MIN <= m2 <= C.INT_MAX ->
    video_modes_requested (trace (run vendor (bits_setVideoMode parse args1) w1))
    = video_modes_requested (trace (run vendor (bits_setVideoMode parse args2) w2)) ->
    m1 = m2.
Proof.
  intros parse W vendor w1 w2 args1 args2 m1 m2 P1 P2 R1 R2 E.
  rewrite (video_modes_of_setVideoMode parse vendor w1 args1 m1 P1) in E.
  rewrite (video_modes_of_setVideoMode parse vendor w2 args2 m2 P2) in E.
  apply to_DWORD_inj_on_int; [exact R1 | exact R2 | congruence].
Qed.

Lemma bits_setVideoMode_masks_stay_distinct_witness :
  Bits.bitsGAMMACORRECT = Bits.bitsGAMMACORRECT.
Proof.
  refine (bits_setVideoMode_masks_stay_distinct
            parse_one_int (list Z) scripted [0] [-8]
            [PyInt Bits.bitsGAMMACORRECT] [PyInt Bits.bitsGAMMACORRECT]
            Bits.bitsGAMMACORRECT Bits.bitsGAMMACORRECT
            eq_refl eq_refl _ _ eq_refl); vm_compute; split; discriminate.
Defined.

(** X2.  A negative argument is not refused by the shim: it reaches the
    vendor as the unsigned value [mask + 2 ^ 32], which has bit 31 set. *)
Theorem bits_setVideoMode_negative_mask_wraps :
  forall (parse : list PyObject -> option Z) (W : Type) (vendor : handler W)
         (w : W) (args : list PyObject) (mask : Z),
    parse args = Some mask ->
    C.INT_MIN <= mask < 0 ->
    video_modes_requested (trace (run vendor (bits_setVideoMode parse args) w))
    = [mask + 2 ^ 32] /\
    2 ^ 31 <= mask + 2 ^ 32 < 2 ^ 32.
Proof.
  intros parse W vendor w args mask P R.
  rewrite (video_modes_of_setVideoMode parse vendor w args mask P).
  rewrite (to_DWORD_negative_int mask R).
  split; [reflexivity | unfold C.INT_MIN in R; lia].
Qed.

Lemma bits_setVideoMode_negative_mask_wraps_witness :
  video_modes_requested
    (trace (run scripted (bits_setVideoMode parse_one_int [PyInt (-1)]) [0]))
  = [-1 + 2 ^ 32] /\
  2 ^ 31 <= -1 + 2 ^ 32 < 2 ^ 32.
Proof.
  refine (bits_setVideoMode_negative_mask_wraps
            parse_one_int (list Z) scripted [0] [PyInt (-1)] (-1) eq_refl _).
  vm_compute. split; [discriminate | reflexivity].
Defined.

(** Putting recognised flags together gives what putting together each
    recognised flag that occurs, once, gives: one of sixteen values. *)
Lemma combine_flags_canonical (flags : list Z) :
  Forall (fun f => In f video_mode_flags) flags ->
  combine_flags flags
  = combine_flags (filter (fun f => existsb (Z.eqb f) flags) video_mode_flags).
Proof.
  induction 1 as [| g fl Hg Hfl IH].
  - reflexivity.
  - change (combine_flags (g :: fl)) with (Z.lor g (combine_flags fl)).
    rewrite IH. unfold video_mode_flags in *.
    cbn [filter existsb].
    destruct (existsb (Z.eqb Bits.bits8BITPALETTEMODE) fl),
             (existsb (Z.eqb Bits.bitsNOGAMMACORRECT) fl),
             (existsb (Z.eqb Bits.bitsGAMMACORRECT) fl),
             (existsb (Z.eqb Bits.bitsVIDEOENCODEDCOMMS) fl);
      destruct Hg as [<- | [<- | [<- | [<- | []]]]]; reflexivity.
Qed.

Lemma existsb_eqb_In (f : Z) (flags : list Z) :
  existsb (Z.eqb f) flags = true <-> In f flags.
Proof.
  rewrite existsb_exists. split.
  - intros [x [Hx E]]. apply Z.eqb_eq in E. subst x. exact Hx.
  - intros H. exists f. split; [exact H | apply Z.eqb_refl].
Qed.

Lemma combine_flags_range (flags : list Z) :
  Forall (fun f => In f video_mode_flags) flags ->
  0 <= combine_flags flags <= C.INT_MAX.
Proof.
  intros H. rewrite (combine_flags_canonical flags H).
  unfold video_mode_flags. cbn [filter].
  destruct (existsb (Z.eqb Bits.bits8BITPALETTEMODE) flags),
           (existsb (Z.eqb Bits.bitsNOGAMMACORRECT) flags),
           (existsb (Z.eqb Bits.bitsGAMMACORRECT) flags),
           (existsb (Z.eqb Bits.bitsVIDEOENCODEDCOMMS) flags);
    vm_compute; split; discriminate.
Qed.

Lemma combine_flags_test (flags : list Z) (f : Z) :
  Forall (fun g => In g video_mode_flags) flags ->
  In f video_mode_flags ->
  (Z.land (combine_flags flags) f = f <-> In f flags).
Proof.
  intros H Hf. rewrite <- existsb_eqb_In.
  rewrite (combine_flags_canonical flags H).
  unfold video_mode_flags in *. cbn [filter].
  destruct Hf as [<- | [<- | [<- | [<- | []]]]];
    destruct (existsb (Z.eqb Bits.bits8BITPALETTEMODE) flags),
             (existsb (Z.eqb Bits.bitsNOGAMMACORRECT) flags),
             (existsb (Z.eqb Bits.bitsGAMMACORRECT) flags),
             (existsb (Z.eqb Bits.bitsVIDEOENCODEDCOMMS) flags);
    vm_compute; split; intros E; try reflexivity; discriminate E.
Qed.

(** X3.  When the caller puts any of the four flags of [bits.h] together
    with bitwise or, in any number and order, the vendor receives that
    very number, and a flag tests as set in what the vendor receives
    exactly when the caller had put it in. *)
Theorem bits_setVideoMode_recognised_flags_arrive :
  forall (parse : list PyObject -> option Z) (W : Type) (vendor : handler W)
         (w : W) (args : list PyObject) (flags : list Z),
    Forall (fun f => In f video_mode_flags) flags ->
    parse args = Some (combine_flags flags) ->
    video_modes_requested (trace (run vendor (bits_setVideoMode parse args) w))
    = [combine_flags flags] /\
    (forall f : Z, In f video_mode_flags ->
                   (Z.land (combine_flags flags) f = f <-> In f flags)).
Proof.
  intros parse W vendor w args flags H P. split.
  - rewrite (video_modes_of_setVideoMode parse vendor w args _ P).
    rewrite to_DWORD_nonneg_int by (apply combine_flags_range; exact H).
    reflexivity.
  - intros f Hf. apply combine_flags_test; assumption.
Qed.

Lemma bits_setVideoMode_recognised_flags_arrive_witness :
  let flags := [Bits.bitsGAMMACORRECT; Bits.bitsVIDEOENCODEDCOMMS;
                Bits.bitsGAMMACORRECT] in
  video_modes_requested
    (trace (run scripted
                (bits_setVideoMode parse_one_int [PyInt (combine_flags flags)])
                [0]))
  = [combine_flags flags] /\
  (forall f : Z, In f video_mode_flags ->
                 (Z.land (combine_flags flags) f = f <-> In f flags)).
Proof.
  refine (bits_setVideoMode_recognised_flags_arrive
            parse_one_int (list Z) scripted [0]
            [PyInt (combine_flags [Bits.bitsGAMMACORRECT;
                                   Bits.bitsVIDEOENCODEDCOMMS;
                                   Bits.bitsGAMMACORRECT])]
            [Bits.bitsGAMMACORRECT; Bits.bitsVIDEOENCODEDCOMMS;
             Bits.bitsGAMMACORRECT] _ eq_refl).
  repeat constructor; unfold video_mode_flags; simpl; tauto.
Defined.

(* ===================================================================== *)
(** ** How the two Bits++ functions read a vendor status *)
(* ===================================================================== *)

(** X4.  [bits_init] tests the status for being negative and
    [bits_setVideoMode] for being nonzero.  Given the same status, both
    fail when it is negative and both succeed when it is zero, but a
    positive status is success for [bits_init] and an error for
    [bits_setVideoMode]. *)
Theorem bits_functions_disagree_on_positive_status :
  forall (parse : list PyObject -> option Z) (W : Type) (vendor : handler W)
         (w w1 w2 : W) (args0 args : list PyObject) (mask status : Z),
    parse args = Some mask ->
    vendor Z (bitsInit EmptyString) w = (status, w1) ->
    vendor Z (bitsSetVideoMode (C.to_DWORD mask)) w = (status, w2) ->
    let r_init := result (run vendor (bits_init args0) w) in
    let r_mode := result (run vendor (bits_setVideoMode parse args) w) in
    (status < 0 -> r_init = None /\ r_mode = None) /\
    (status = 0 -> r_init = Some (PyInt 1) /\ r_mode = Some (PyInt 1)) /\
    (0 < status -> r_init = Some (PyInt 1) /\ r_mode = None).
Proof.
  intros parse W vendor w w1 w2 args0 args mask status P E1 E2 r_init r_mode.
  subst r_init r_mode.
  rewrite (run_bits_init vendor w w1 args0 status E1).
  rewrite (run_bits_setVideoMode parse vendor w w2 args mask status P E2).
  cbn [result]. unfold C.truthy.
  destruct (Z.ltb_spec status 0), (Z.eqb_spec status 0); cbn [negb];
    repeat split; intros; try lia; reflexivity.
Qed.

Lemma bits_functions_disagree_on_positive_status_witness :
  let r_init := result (run (constant_os 0 1) (bits_init []) tt) in
  let r_mode := result (run (constant_os 0 1)
                            (bits_setVideoMode parse_one_int [PyInt 1]) tt) in
  (1 < 0 -> r_init = None /\ r_mode = None) /\
  (1 = 0 -> r_init = Some (PyInt 1) /\ r_mode = Some (PyInt 1)) /\
  (0 < 1 -> r_init = Some (PyInt 1) /\ r_mode = None).
Proof.
  exact (bits_functions_disagree_on_positive_status
           parse_one_int unit (constant_os 0 1) tt tt tt [] [PyInt 1] 1 1
           eq_refl eq_refl eq_refl).
Defined.

(** X5.  Each error code [bits.h] defines makes both functions signal an
    error when the vendor answers it. *)
Theorem bits_declared_errors_are_errors :
  forall (parse : list PyObject -> option Z) (W : Type) (vendor : handler W)
         (w w1 w2 : W) (args0 args : list PyObject) (mask code : Z),
    In code declared_errors ->
    parse args = Some mask ->
    vendor Z (bitsInit EmptyString) w = (code, w1) ->
    vendor Z (bitsSetVideoMode (C.to_DWORD mask)) w = (code, w2) ->
    result (run vendor (bits_init args0) w) = None /\
    result (run vendor (bits_setVideoMode parse args) w) = None.
Proof.
  intros parse W vendor w w1 w2 args0 args mask code Hc P E1 E2.
  rewrite (run_bits_init vendor w w1 args0 code E1).
  rewrite (run_bits_setVideoMode parse vendor w w2 args mask code P E2).
  unfold declared_errors in Hc.
  destruct Hc as [<- | [<- | [<- | [<- | [<- | []]]]]]; split; reflexivity.
Qed.

Lemma bits_declared_errors_are_errors_witness :
  result (run (constant_os 0 Bits.E_OUTOFRESOURCES) (bits_init []) tt) = None /\
  result (run (constant_os 0 Bits.E_OUTOFRESOURCES)
              (bits_setVideoMode parse_one_int [PyInt 1]) tt) = None.
Proof.
  refine (bits_declared_errors_are_errors
            parse_one_int unit (constant_os 0 Bits.E_OUTOFRESOURCES) tt tt tt
            [] [PyInt 1] 1 Bits.E_OUTOFRESOURCES _ eq_refl eq_refl eq_refl).
  unfold declared_errors. simpl. tauto.
Defined.

(* ===================================================================== *)
(** ** More on the priority functions *)
(* ===================================================================== *)

(** X6.  The priority functions never signal an error to the interpreter,
    whatever the system reports; the integer they return is 0 exactly when
    the reported result is a multiple of 65536, so a reported 0 comes back
    as 0 and so does a reported 65536. *)
Theorem win32_priority_zero_iff_multiple_of_65536 :
  forall (W : Type) (os : handler W) (w w1 w2 : W) (h : HANDLE) (p r : Z),
    (os HANDLE GetCurrentProcess w = (h, w1) ->
     os Z (SetPriorityClass h (C.to_DWORD p)) w1 = (r, w2) ->
     let o := run os (win32_setProcessPriority p) w in
     result o <> None /\
     (result o = Some (PyInt 0) <-> exists k : Z, r = 65536 * k)) /\
    (os HANDLE GetCurrentThread w = (h, w1) ->
     os Z (SetThreadPriority h p) w1 = (r, w2) ->
     let o := run os (win32_setThreadPriority p) w in
     result o <> None /\
     (result o = Some (PyInt 0) <-> exists k : Z, r = 65536 * k)).
Proof.
  assert (Hmod : forall r : Z,
             Some (PyInt (C.to_ushort r)) = Some (PyInt 0)
             <-> exists k : Z, r = 65536 * k).
  { intros r. unfold C.to_ushort. change (2 ^ 16) with 65536. split.
    - intros E. injection E as E. exists (r / 65536).
      pose proof (Z.div_mod r 65536). lia.
    - intros [k ->]. rewrite Z.mul_comm, Z.mod_mul by discriminate.
      reflexivity. }
  intros W os w w1 w2 h p r. split; intros E1 E2 o; subst o.
  - rewrite (run_win32_setProcessPriority os w w1 w2 h p r E1 E2).
    cbn [result]. split; [discriminate | apply Hmod].
  - rewrite (run_win32_setThreadPriority os w w1 w2 h p r E1 E2).
    cbn [result]. split; [discriminate | apply Hmod].
Qed.

Lemma win32_priority_zero_iff_multiple_of_65536_witness :
  (let o := run (constant_os (-1) 131072) (win32_setProcessPriority 32) tt in
   result o <> None /\
   (result o = Some (PyInt 0) <-> exists k : Z, 131072 = 65536 * k)) /\
  (let o := run (constant_os (-1) 131072) (win32_setThreadPriority 32) tt in
   result o <> None /\
   (result o = Some (PyInt 0) <-> exists k : Z, 131072 = 65536 * k)).
Proof.
  pose proof (win32_priority_zero_iff_multiple_of_65536
                unit (constant_os (-1) 131072) tt tt tt (-1) 32 131072)
    as [HP HT].
  split; [exact (HP eq_refl eq_refl) | exact (HT eq_refl eq_refl)].
Defined.

(* ===================================================================== *)
(** ** What every operation does and does not call *)
(* ===================================================================== *)

Section CallShape.

Variable parse : list PyObject -> option Z.
Context {W : Type}.
Variable vendor : handler W.

Lemma exec_trace_shape (o : op) (w : W) :
  let t := trace (run vendor (exec parse o) w) in
  List.length t = external_calls parse o /\
  Forall (fun e => event_family e = op_family o) t.
Proof.
  destruct o as [args | args | c | p | a | policy priority | h];
    cbn [exec external_calls op_family]; rewrite run_bind; cbv zeta.
  - destruct (vendor Z (bitsInit EmptyString) w) as [st w1] eqn:E.
    rewrite (run_bits_init vendor w w1 args st E).
    split; [reflexivity | repeat constructor].
  - unfold bits_setVideoMode. destruct (parse args) as [v |].
    + cbn. destruct (vendor Z (bitsSetVideoMode (C.to_DWORD v)) w) as [st w1].
      destruct (C.truthy st); (split; [reflexivity | repeat constructor]).
    + split; [reflexivity | constructor].
  - cbn. destruct (vendor HANDLE GetCurrentProcess w) as [hp w1].
    destruct (vendor Z (SetPriorityClass hp _) w1) as [r w2].
    split; [reflexivity | repeat constructor].
  - cbn. destruct (vendor HANDLE GetCurrentThread w) as [ht w1].
    destruct (vendor Z (SetThreadPriority ht _) w1) as [r w2].
    split; [reflexivity | repeat constructor].
  - cbn.
    destruct (vendor (Z * DEVMODE)%type
                     (EnumDisplaySettings None ENUM_CURRENT_SETTINGS 0) w)
      as [[ok dm] w1].
    destruct (C.truthy ok); (split; [reflexivity | repeat constructor]).
  - cbn.
    destruct (vendor Z (sched_setscheduler 0 policy (mk_sched_param priority)) w)
      as [st w1].
    split; [reflexivity | repeat constructor].
  - unfold stop_memory_paging.
    destruct (MCL_CURRENT h) as [c |]; [| split; [reflexivity | constructor]].
    destruct (MCL_FUTURE h) as [f |]; [| split; [reflexivity | constructor]].
    cbn. destruct (vendor Z (mlockall (Z.lor c f)) w) as [st w1].
    split; [reflexivity | repeat constructor].
Qed.

Lemma external_calls_le_2 (o : op) : (external_calls parse o <= 2)%nat.
Proof.
  destruct o as [args | args | c | p | a | policy priority | h];
    cbn [external_calls]; try lia.
  - destruct (parse args); lia.
  - destruct (MCL_CURRENT h), (MCL_FUTURE h); lia.
Qed.

End CallShape.

(** X7.  A sequence of operations gives one result for each operation,
    and the number of external calls it makes is fixed by the operations
    and by which arguments parse: at most two a piece, and no answer of
    the vendor or the system, failure or not, adds a call or leaves one
    out. *)
Theorem sequence_makes_fixed_number_of_calls :
  forall (parse : list PyObject -> option Z) (W : Type) (vendor : handler W)
         (ops : list op) (w : W),
    let o := run vendor (exec_all parse ops) w in
    List.length (result o) = List.length ops /\
    List.length (trace o) = list_sum (map (external_calls parse) ops) /\
    (List.length (trace o) <= 2 * List.length ops)%nat.
Proof.
  intros parse W vendor ops. induction ops as [| o ops IH]; intros w.
  - cbn. repeat split; lia.
  - cbv zeta. rewrite run_exec_all_cons. cbv zeta. cbn [result trace].
    specialize (IH (world (run vendor (exec parse o) w))). cbv zeta in IH.
    destruct IH as [IHr [IHt IHb]].
    destruct (exec_trace_shape parse vendor o w) as [Hlen _].
    pose proof (external_calls_le_2 parse o) as Hle.
    rewrite List.length_app. cbn [List.length map list_sum].
    rewrite IHr, IHt, Hlen in *. repeat split; lia.
Qed.

(** X8.  Every external call a sequence of operations makes belongs to
    the family (vendor library, Windows, POSIX) of one of the operations in
    the sequence: operations of one shim never call into what another shim
    wraps. *)
Theorem sequence_calls_only_its_own_families :
  forall (parse : list PyObject -> option Z) (W : Type) (vendor : handler W)
         (ops : list op) (w : W),
    Forall (fun e => In (event_family e) (map op_family ops))
           (trace (run vendor (exec_all parse ops) w)).
Proof.
  intros parse W vendor ops. induction ops as [| o ops IH]; intros w.
  - constructor.
  - rewrite run_exec_all_cons. cbv zeta. cbn [trace map].
    apply Forall_app. split.
    + destruct (exec_trace_shape parse vendor o w) as [_ Hfam].
      eapply Forall_impl; [| exact Hfam].
      intros e He. left. symmetry. exact He.
    + eapply Forall_impl; [| apply IH].
      intros e He. right. exact He.
Qed.

(* ===================================================================== *)
(** ** The modules the initialisers register *)
(* ===================================================================== *)

(** X9.  The method table that [init_bits] registers under the module
    name [_bits] binds two names and no other: [bitsInit] to [bits_init]
    and [bitsSetVideoMode] to [bits_setVideoMode], both entered as
    [METH_VARARGS].  For any other name the table has no entry, so no
    function of the file is reached through it. *)
Theorem bits_method_table_binds_two_names :
  forall (parse : list PyObject -> option Z) (name : string),
    m_name (init_bits parse) = "_bits"%string /\
    (name = "bitsInit"%string ->
     exists d : PyMethodDef PyCFunction,
       getattr (init_bits parse) name = Some d /\
       ml_meth d = Some bits_init /\
       ml_flags d = METH_VARARGS) /\
    (name = "bitsSetVideoMode"%string ->
     exists d : PyMethodDef PyCFunction,
       getattr (init_bits parse) name = Some d /\
       ml_meth d = Some (bits_setVideoMode parse) /\
       ml_flags d = METH_VARARGS) /\
    (name <> "bitsInit"%string -> name <> "bitsSetVideoMode"%string ->
     getattr (init_bits parse) name = None).
Proof.
  intros parse name.
  unfold getattr, init_bits, bitsMethods.
  cbn [m_name m_methods before_sentinel ml_name dict_get].
  split; [reflexivity |]. repeat split.
  - intros ->. eexists. cbn [String.eqb Ascii.eqb Bool.eqb].
    repeat split; reflexivity.
  - intros ->. eexists. cbn [String.eqb Ascii.eqb Bool.eqb].
    repeat split; reflexivity.
  - intros N1 N2.
    destruct (String.eqb_spec name "bitsSetVideoMode"); [contradiction |].
    destruct (String.eqb_spec name "bitsInit"); [contradiction |].
    reflexivity.
Qed.

Lemma bits_method_table_binds_two_names_witness :
  m_name (init_bits parse_one_int) = "_bits"%string /\
  ("bitsSlowSetLUT"%string = "bitsInit"%string ->
   exists d : PyMethodDef PyCFunction,
     getattr (init_bits parse_one_int) "bitsSlowSetLUT" = Some d /\
     ml_meth d = Some bits_init /\
     ml_flags d = METH_VARARGS) /\
  ("bitsSlowSetLUT"%string = "bitsSetVideoMode"%string ->
   exists d : PyMethodDef PyCFunction,
     getattr (init_bits parse_one_int) "bitsSlowSetLUT" = Some d /\
     ml_meth d = Some (bits_setVideoMode parse_one_int) /\
     ml_flags d = METH_VARARGS) /\
  ("bitsSlowSetLUT"%string <> "bitsInit"%string ->
   "bitsSlowSetLUT"%string <> "bitsSetVideoMode"%string ->
   getattr (init_bits parse_one_int) "bitsSlowSetLUT" = None).
Proof.
  exact (bits_method_table_binds_two_names parse_one_int "bitsSlowSetLUT").
Defined.



(* ===================================================================== *)
(** ** More on [win32_getRefresh] *)
(* ===================================================================== *)

(** X11.  [getRefresh] makes exactly one call: it asks for the current
    settings of the default display (no device name) with [dmDriverExtra]
    set to 0.  It signals an error exactly when that call answers zero;
    for every other answer, negative ones too, it returns a float object. *)
Theorem win32_getRefresh_one_query_error_iff_zero :
  forall (W : Type) (os : handler W) (w w' : W) (adjacent ok : Z) (dm : DEVMODE),
    os (Z * DEVMODE)%type (EnumDisplaySettings None ENUM_CURRENT_SETTINGS 0) w
    = ((ok, dm), w') ->
    let o := run os (win32_getRefresh adjacent) w in
    trace o = [Ev (EnumDisplaySettings None ENUM_CURRENT_SETTINGS 0) (ok, dm)] /\
    world o = w' /\
    (result o = None <-> ok = 0) /\
    (ok <> 0 -> exists bits : Z, result o = Some (PyFloat bits)).
Proof.
  intros W os w w' adjacent ok dm E o. subst o.
  rewrite (run_win32_getRefresh os w w' adjacent ok dm E).
  cbn [trace world result].
  split; [reflexivity | split; [reflexivity |]].
  destruct (C.truthy ok) eqn:T.
  - apply truthy_true in T. split; [split; intros H; congruence |].
    intros _. eexists. reflexivity.
  - apply truthy_false in T. split; [split; intros H; congruence |].
    intros N. contradiction.
Qed.

Lemma win32_getRefresh_one_query_error_iff_zero_witness :
  let o := run scripted (win32_getRefresh 0) [0; 60] in
  trace o = [Ev (EnumDisplaySettings None ENUM_CURRENT_SETTINGS 0)
                (0, mkDEVMODE 0 60)] /\
  world o = [] /\
  (result o = None <-> 0 = 0) /\
  (0 <> 0 -> exists bits : Z, result o = Some (PyFloat bits)).
Proof.
  exact (win32_getRefresh_one_query_error_iff_zero
           (list Z) scripted [0; 60] [] 0 0 (mkDEVMODE 0 60) eq_refl).
Defined.
